(** * APIDB: the timing decorator and the guarded database facade of [api.py]

    The module [api.py] is a thin facade over SQLAlchemy and pandas.  Its
    methods are embedded as programs over the external calls they make
    (clock, console, schema inspection, pandas I/O, connection use).  They
    are run against a reference environment that plays the collaborators
    ([exec]), and, for what does not depend on the collaborators, against
    any environment ([run]). *)

From Stdlib Require Import QArith Qround ZArith String Ascii List Lia.
From stdpp Require Import gmap strings.

Local Open Scope Z_scope.

(** ** Values exchanged with the collaborators *)

(** Scalars held by dataset cells and by bind parameters. *)
Inductive Value : Type :=
| VNone
| VInt (z : Z)
| VStr (s : string).

(** A tabular dataset: named columns and rows, without an explicit index. *)
Record DataFrame : Type := {
  df_columns : list string;
  df_rows : list (list Value)
}.

Record Engine : Type := { engine_url : string }.
Record Inspector : Type := { inspector_bind : Engine }.
Record Connection : Type := { connection_engine : Engine }.
Record TextClause : Type := { clause_text : string }.
Record CursorResult : Type := {
  cursor_columns : list string;
  cursor_rows : list (list Value);
  cursor_rowcount : Z
}.

Inductive Exception : Type :=
| ValueError (msg : string)
| ProgrammingError (msg : string)
| StatementError (msg : string)
| ResourceClosedError (msg : string)
| UserException (name : string).

Inductive Outcome (X : Type) : Type :=
| Returned (x : X)
| Raised (e : Exception).
Arguments Returned {X} x.
Arguments Raised {X} e.

(** [sqlalchemy.create_engine] is lazy: it only records the URL. *)
Definition create_engine (connection_url : string) : Engine :=
  {| engine_url := connection_url |}.

(** [sqlalchemy.text]. *)
Definition text (query : string) : TextClause := {| clause_text := query |}.

(** ** Programs over external calls *)

Inductive Event : Type -> Type :=
| time_time : Event Q
| print (line : string) : Event unit
| raise_ (e : Exception) : Event Empty_set
| inspect (engine : Engine) : Event Inspector
| get_table_names (inspector : Inspector) : Event (list string)
| to_sql (dataframe : DataFrame) (name : string) (con : Engine)
         (if_exists : string) (index : bool) : Event (option Z)
| read_sql_query (sql : string) (con : Engine) : Event DataFrame
| connect (engine : Engine) : Event Connection
| conn_execute (conn : Connection) (statement : TextClause)
               (parameters : gmap string Value) : Event CursorResult
| conn_commit (conn : Connection) : Event unit
| conn_close (conn : Connection) : Event unit.

(** [TryFinally body final k] runs [final] whether or not [body] raised,
    as the exit of a [with] block does. *)
Inductive Prog (R : Type) : Type :=
| Return (r : R)
| Call {X : Type} (e : Event X) (k : X -> Prog R)
| TryFinally {X : Type} (body : Prog X) (final : Prog unit) (k : X -> Prog R).
Arguments Return {R} r.
Arguments Call {R X} e k.
Arguments TryFinally {R X} body final k.

Fixpoint bind {A B : Type} (p : Prog A) (f : A -> Prog B) : Prog B :=
  match p with
  | Return a => f a
  | Call e k => Call e (fun x => bind (k x) f)
  | TryFinally body final k => TryFinally body final (fun x => bind (k x) f)
  end.

Definition call {X : Type} (e : Event X) : Prog X := Call e Return.

#[global] Instance Prog_ret : MRet Prog := @Return.
#[global] Instance Prog_bind : MBind Prog := fun A B f p => bind p f.

(** One executed external call, as recorded in the environment's log. *)
Inductive Entry : Type :=
| entry {X : Type} (e : Event X).

(** The calls that can change stored data. *)
Definition writes_database (c : Entry) : bool :=
  match c with
  | entry (to_sql _ _ _ _ _) => true
  | entry (conn_execute _ _ _) => true
  | entry (conn_commit _) => true
  | _ => false
  end.

(** The calls that read the live schema. *)
Definition queries_schema (c : Entry) : bool :=
  match c with
  | entry (get_table_names _) => true
  | _ => false
  end.

(** ** The clock formatting used by the decorator *)

(** The fields of [time.struct_time] that ["%H-%M-%S"] reads. *)
Record struct_time : Type := { tm_hour : Z; tm_min : Z; tm_sec : Z }.

(** [time.gmtime(secs)]: the fraction is dropped towards minus infinity and
    the time of day is taken in UTC. *)
Definition gmtime (secs : Q) : struct_time :=
  let t := Qfloor secs in
  let second_of_day := t mod 86400 in
  {| tm_hour := second_of_day / 3600;
     tm_min := (second_of_day mod 3600) / 60;
     tm_sec := second_of_day mod 60 |}.

Definition digit (n : Z) : ascii := ascii_of_nat (48 + Z.to_nat n).

(** A zero padded two digit decimal field. *)
Definition two_digits (n : Z) : string :=
  String (digit (n / 10)) (String (digit (n mod 10)) EmptyString).

Definition directive (d : ascii) (t : struct_time) : string :=
  if Ascii.eqb d "H" then two_digits (tm_hour t)
  else if Ascii.eqb d "M" then two_digits (tm_min t)
  else if Ascii.eqb d "S" then two_digits (tm_sec t)
  else String "%" (String d EmptyString).

(** [time.strftime(format, t)] for the directives [%H], [%M] and [%S]. *)
Fixpoint strftime (format : string) (t : struct_time) : string :=
  match format with
  | EmptyString => EmptyString
  | String c rest =>
      if Ascii.eqb c "%" then
        match rest with
        | String d rest' => directive d t +:+ strftime rest' t
        | EmptyString => String c EmptyString
        end
      else String c (strftime rest t)
  end.

(** Reads a two digit field back as a number. *)
Definition digit_value (c : ascii) : option Z :=
  let n := Z.of_nat (nat_of_ascii c) in
  if (48 <=? n) && (n <=? 57) then Some (n - 48) else None.

Definition hours_field (formatted : string) : option Z :=
  match formatted with
  | String a (String b _) =>
      match digit_value a, digit_value b with
      | Some x, Some y => Some (10 * x + y)
      | _, _ => None
      end
  | _ => None
  end.

(** ** [measure_execution_time] *)

(** [arguments] stands for the [*args, **kwargs] bundle the wrapper passes
    on untouched. *)
Definition measure_execution_time {A R : Type} (func : A -> Prog R)
  : A -> Prog R :=
  fun arguments =>
    start_time ← call time_time;
    result ← func arguments;
    end_time ← call time_time;
    let execution_time := (end_time - start_time)%Q in
    let formatted_time := strftime "%H-%M-%S" (gmtime execution_time) in
    _ ← call (print ("Время выполнения: " +:+ formatted_time));
    mret result.

(** ** [DatabaseAPI] *)

Record DatabaseAPI : Type := {
  host : string;
  username : string;
  password : string;
  database_name : string;
  engine : Engine
}.

Definition create_connection (host username password database_name : string)
  : Engine :=
  let connection_url :=
    "postgresql+psycopg2://" +:+ username +:+ ":" +:+ password
      +:+ "@" +:+ host +:+ "/" +:+ database_name in
  create_engine connection_url.

(** [DatabaseAPI.__init__]. *)
Definition new_DatabaseAPI (host username password database_name : string)
  : DatabaseAPI :=
  {| host := host; username := username; password := password;
     database_name := database_name;
     engine := create_connection host username password database_name |}.

(** [with engine.connect() as conn: body]. *)
Definition with_connect {X : Type} (engine : Engine)
  (body : Connection -> Prog X) : Prog X :=
  conn ← call (connect engine);
  TryFinally (body conn) (call (conn_close conn)) Return.

(** The methods as written, before decoration. *)
Module Undecorated.

Definition create_table (a : DatabaseAPI * string * DataFrame) : Prog unit :=
  let '(self, table_name, dataframe) := a in
  inspector ← call (inspect (engine self));
  names ← call (get_table_names inspector);
  if bool_decide (table_name ∈ names) then
    call (print ("Таблица " +:+ table_name
                   +:+ " уже существует. Нельзя создать таблицу."))
  else
    _ ← call (to_sql dataframe table_name (engine self) "fail" false);
    call (print ("Таблица " +:+ table_name +:+ " успешно создана.")).

Definition insert_sql (a : DatabaseAPI * string * DataFrame * string)
  : Prog unit :=
  let '(self, table_name, dataframe, mode) := a in
  inspector ← call (inspect (engine self));
  names ← call (get_table_names inspector);
  if bool_decide (table_name ∉ names) then
    call (print ("Таблица " +:+ table_name
                   +:+ " не существует. Данные не могут быть добавлены."))
  else
    if String.eqb mode "append" then
      _ ← call (to_sql dataframe table_name (engine self) "append" false);
      call (print ("Данные успешно добавлены в таблицу " +:+ table_name +:+ "."))
    else if String.eqb mode "replace" then
      _ ← call (to_sql dataframe table_name (engine self) "replace" false);
      call (print ("Данные успешно добавлены в таблицу " +:+ table_name +:+ "."))
    else mret tt.

Definition truncate_table (a : DatabaseAPI * string) : Prog unit :=
  let '(self, table_name) := a in
  inspector ← call (inspect (engine self));
  names ← call (get_table_names inspector);
  if bool_decide (table_name ∉ names) then
    call (print ("Таблица " +:+ table_name
                   +:+ " не существует. Нельзя выполнить очистку."))
  else
    _ ← with_connect (engine self) (fun conn =>
          let truncate_query := text ("TRUNCATE TABLE " +:+ table_name) in
          _ ← call (conn_execute conn truncate_query ∅);
          call (conn_commit conn));
    call (print ("Таблица " +:+ table_name +:+ " успешно очищена.")).

Definition read_sql (a : DatabaseAPI * string) : Prog (option DataFrame) :=
  let '(self, table_name) := a in
  inspector ← call (inspect (engine self));
  names ← call (get_table_names inspector);
  if bool_decide (table_name ∉ names) then
    _ ← call (print ("Таблица " +:+ table_name
                       +:+ " не существует. Невозможно прочитать данные."));
    mret None
  else
    let query := "SELECT * FROM " +:+ table_name in
    result ← call (read_sql_query query (engine self));
    mret (Some result).

(** The text of the DELETE statement built from the positional [columns]. *)
Definition delete_query (table_name : string) (columns : list string)
  : TextClause :=
  text ("DELETE FROM " +:+ table_name +:+ " WHERE "
          +:+ String.concat " AND "
                (map (fun column => column +:+ " = :" +:+ column) columns)).

Definition delete_from_table
  (a : DatabaseAPI * string * list string * gmap string Value) : Prog unit :=
  let '(self, table_name, columns, conditions) := a in
  inspector ← call (inspect (engine self));
  names ← call (get_table_names inspector);
  if bool_decide (table_name ∉ names) then
    call (print ("Таблица " +:+ table_name
                   +:+ " не существует. Невозможно удалить данные."))
  else
    if bool_decide (columns = []) || bool_decide (conditions = ∅) then
      call (print "Не указаны столбцы и условия для удаления.")
    else
      _ ← with_connect (engine self) (fun conn =>
            _ ← call (conn_execute conn (delete_query table_name columns)
                        conditions);
            call (conn_commit conn));
      call (print ("Данные в таблице " +:+ table_name +:+ " успешно удалены.")).

Definition execute (a : DatabaseAPI * string) : Prog CursorResult :=
  let '(self, query) := a in
  with_connect (engine self) (fun conn =>
    result ← call (conn_execute conn (text query) ∅);
    _ ← call (conn_commit conn);
    mret result).

End Undecorated.

(** The methods as exported, each under [@measure_execution_time]. *)
Definition create_table (self : DatabaseAPI) (table_name : string)
  (dataframe : DataFrame) : Prog unit :=
  measure_execution_time Undecorated.create_table (self, table_name, dataframe).

Definition insert_sql (self : DatabaseAPI) (table_name : string)
  (dataframe : DataFrame) (mode : string) : Prog unit :=
  measure_execution_time Undecorated.insert_sql
    (self, table_name, dataframe, mode).

Definition truncate_table (self : DatabaseAPI) (table_name : string)
  : Prog unit :=
  measure_execution_time Undecorated.truncate_table (self, table_name).

Definition read_sql (self : DatabaseAPI) (table_name : string)
  : Prog (option DataFrame) :=
  measure_execution_time Undecorated.read_sql (self, table_name).

Definition delete_from_table (self : DatabaseAPI) (table_name : string)
  (columns : list string) (conditions : gmap string Value) : Prog unit :=
  measure_execution_time Undecorated.delete_from_table
    (self, table_name, columns, conditions).

Definition execute (self : DatabaseAPI) (query : string) : Prog CursorResult :=
  measure_execution_time Undecorated.execute (self, query).

(** ** Reference environment: the SQL text the facade sends

    Statements reach the database as text.  The reference database splits
    a statement at spaces and reads a table or column reference as one
    unquoted identifier, folded to lower case and not a reserved word, the
    way PostgreSQL (the dialect named in the connection URL) reads it. *)

Fixpoint tokens_from (current s : string) : list string :=
  match s with
  | EmptyString => if String.eqb current "" then [] else [current]
  | String c rest =>
      if Ascii.eqb c " " then
        (if String.eqb current "" then [] else [current])
          ++ tokens_from "" rest
      else tokens_from (current +:+ String c EmptyString) rest
  end.

Definition tokens (s : string) : list string := tokens_from "" s.

Definition code_between (lo hi : nat) (c : ascii) : bool :=
  let n := nat_of_ascii c in (lo <=? n)%nat && (n <=? hi)%nat.

Definition is_upper : ascii -> bool := code_between 65 90.
Definition is_lower : ascii -> bool := code_between 97 122.
Definition is_digit : ascii -> bool := code_between 48 57.

Definition lower (c : ascii) : ascii :=
  if is_upper c then ascii_of_nat (nat_of_ascii c + 32) else c.

Fixpoint fold_case (s : string) : string :=
  match s with
  | EmptyString => EmptyString
  | String c rest => String (lower c) (fold_case rest)
  end.

Fixpoint all_chars (p : ascii -> bool) (s : string) : bool :=
  match s with
  | EmptyString => true
  | String c rest => p c && all_chars p rest
  end.

Definition word_char (c : ascii) : bool :=
  is_upper c || is_lower c || is_digit c || Ascii.eqb c "_".

Definition is_identifier (tok : string) : bool :=
  match tok with
  | EmptyString => false
  | String c _ => negb (is_digit c) && all_chars word_char tok
  end.

(** PostgreSQL's fully reserved key words.  The key words that may also
    name a function or a type ([left], [join], [like], ...) are not
    listed, nor is the limit on the length of a name. *)
Definition reserved_words : list string :=
  [ "all"; "analyse"; "analyze"; "and"; "any"; "array"; "as"; "asc";
    "asymmetric"; "both"; "case"; "cast"; "check"; "collate"; "column";
    "constraint"; "create"; "current_catalog"; "current_date";
    "current_role"; "current_time"; "current_timestamp"; "current_user";
    "default"; "deferrable"; "desc"; "distinct"; "do"; "else"; "end";
    "except"; "false"; "fetch"; "for"; "foreign"; "from"; "grant"; "group";
    "having"; "in"; "initially"; "intersect"; "into"; "lateral"; "leading";
    "limit"; "localtime"; "localtimestamp"; "not"; "null"; "offset"; "on";
    "only"; "or"; "order"; "placing"; "primary"; "references"; "returning";
    "select"; "session_user"; "some"; "symmetric"; "system_user"; "table";
    "then"; "to"; "trailing"; "true"; "union"; "unique"; "user"; "using";
    "variadic"; "when"; "where"; "window"; "with" ].

Definition is_reserved (word : string) : bool :=
  existsb (String.eqb word) reserved_words.

(** The name an unquoted reference denotes, if it is one. *)
Definition identifier_ref (tok : string) : option string :=
  if is_identifier tok && negb (is_reserved (fold_case tok))
  then Some (fold_case tok) else None.

Definition keyword (word tok : string) : bool :=
  String.eqb (fold_case tok) word.

(** A bind parameter [:name]. *)
Definition bind_name (tok : string) : option string :=
  match tok with
  | String c name =>
      if Ascii.eqb c ":" && negb (String.eqb name "") && all_chars word_char name
      then Some name else None
  | EmptyString => None
  end.

(** A name that the reference database reads back as itself when
    written unquoted: lower case, word characters, no leading digit, not
    in [reserved_words]. *)
Definition plain_identifier (name : string) : bool :=
  is_identifier name
    && all_chars (fun c => negb (is_upper c)) name
    && negb (is_reserved name).

Inductive Statement : Type :=
| SelectAll (table : string)
| TruncateTable (table : string)
| DeleteWhere (table : string) (tests : list (string * string)).

(** [column = :name] tests joined by AND. *)
Fixpoint parse_tests (toks : list string) : option (list (string * string)) :=
  match toks with
  | column :: eq :: param :: rest =>
      if String.eqb eq "=" then
        match identifier_ref column, bind_name param with
        | Some c, Some p =>
            match rest with
            | [] => Some [(c, p)]
            | joiner :: rest' =>
                if keyword "and" joiner
                then cons (c, p) <$> parse_tests rest'
                else None
            end
        | _, _ => None
        end
      else None
  | _ => None
  end.

(** The statements the reference database understands:
    [SELECT * FROM t], optionally with a table alias, [TRUNCATE TABLE t]
    and [DELETE FROM t], optionally with a WHERE clause of bound tests.
    Any other text is refused as a syntax error, which a real database
    need not do; what holds of arbitrary text is stated against [run]. *)
Definition parse (sql : string) : option Statement :=
  match tokens sql with
  | k1 :: k2 :: k3 :: rest =>
      if keyword "select" k1 && String.eqb k2 "*" && keyword "from" k3 then
        match rest with
        | [t] => SelectAll <$> identifier_ref t
        | [t; alias] =>
            match identifier_ref alias with
            | Some _ => SelectAll <$> identifier_ref t
            | None => None
            end
        | _ => None
        end
      else if keyword "truncate" k1 && keyword "table" k2 then
        match rest with
        | [] => TruncateTable <$> identifier_ref k3
        | _ => None
        end
      else if keyword "delete" k1 && keyword "from" k2 then
        match rest with
        | [] => (fun t => DeleteWhere t []) <$> identifier_ref k3
        | k4 :: tests =>
            if keyword "where" k4 then
              match identifier_ref k3, parse_tests tests with
              | Some t, Some ts => Some (DeleteWhere t ts)
              | _, _ => None
              end
            else None
        end
      else None
  | _ => None
  end.

(** ** Reference environment: stored tables *)

Fixpoint index_of (x : string) (l : list string) : option nat :=
  match l with
  | [] => None
  | y :: l' => if String.eqb x y then Some 0%nat else S <$> index_of x l'
  end.

(** SQL equality on values of one kind: NULL equals nothing.  Values of
    different kinds compare unequal here; the coercions and type errors
    of a real database are not modelled. *)
Definition sql_eq (a b : Value) : bool :=
  match a, b with
  | VInt x, VInt y => Z.eqb x y
  | VStr x, VStr y => String.eqb x y
  | _, _ => false
  end.

Definition row_matches (tests : list (nat * Value)) (row : list Value) : bool :=
  forallb (fun t => match row !! fst t with
                    | Some x => sql_eq x (snd t)
                    | None => false
                    end) tests.

(** Binds every test to a value, as SQLAlchemy does before sending. *)
Fixpoint bind_tests (tests : list (string * string))
  (parameters : gmap string Value) : option (list (string * Value)) :=
  match tests with
  | [] => Some []
  | (c, p) :: rest =>
      match parameters !! p, bind_tests rest parameters with
      | Some v, Some l => Some ((c, v) :: l)
      | _, _ => None
      end
  end.

Fixpoint locate_tests (tests : list (string * Value)) (columns : list string)
  : option (list (nat * Value)) :=
  match tests with
  | [] => Some []
  | (c, v) :: rest =>
      match index_of c columns, locate_tests rest columns with
      | Some i, Some l => Some ((i, v) :: l)
      | _, _ => None
      end
  end.

Definition no_rows : CursorResult :=
  {| cursor_columns := []; cursor_rows := []; cursor_rowcount := -1 |}.

Definition run_statement (st : Statement) (parameters : gmap string Value)
  (db : gmap string DataFrame) : Outcome (CursorResult * gmap string DataFrame) :=
  match st with
  | SelectAll t =>
      match db !! t with
      | Some d =>
          Returned ({| cursor_columns := df_columns d;
                       cursor_rows := df_rows d;
                       cursor_rowcount := Z.of_nat (length (df_rows d)) |}, db)
      | None => Raised (ProgrammingError "relation does not exist")
      end
  | TruncateTable t =>
      match db !! t with
      | Some d =>
          Returned (no_rows,
                    <[t := {| df_columns := df_columns d; df_rows := [] |}]> db)
      | None => Raised (ProgrammingError "relation does not exist")
      end
  | DeleteWhere t tests =>
      match bind_tests tests parameters with
      | None => Raised (StatementError "A value is required for bind parameter")
      | Some bound =>
          match db !! t with
          | None => Raised (ProgrammingError "relation does not exist")
          | Some d =>
              match locate_tests bound (df_columns d) with
              | None => Raised (ProgrammingError "column does not exist")
              | Some located =>
                  let kept :=
                    filter (fun row => row_matches located row = false)
                           (df_rows d) in
                  Returned
                    ({| cursor_columns := []; cursor_rows := [];
                        cursor_rowcount :=
                          Z.of_nat (length (df_rows d) - length kept) |},
                     <[t := {| df_columns := df_columns d; df_rows := kept |}]> db)
              end
          end
      end
  end.

(** [index=True] would add the frame's default index as a first column. *)
Definition with_index (frame : DataFrame) : DataFrame :=
  {| df_columns := "index" :: df_columns frame;
     df_rows := imap (fun i row => VInt (Z.of_nat i) :: row) (df_rows frame) |}.

(** A frame row laid out in the columns of the stored table. *)
Definition aligned_row (table_columns frame_columns : list string)
  (row : list Value) : list Value :=
  map (fun c => match index_of c frame_columns with
                | Some i => default VNone (row !! i)
                | None => VNone
                end) table_columns.

(** [DataFrame.to_sql(name, con, if_exists=..., index=...)] on the
    reference database: cells are stored as given, without column types
    or bounds. *)
Definition pandas_to_sql (frame : DataFrame) (name if_exists : string)
  (index : bool) (db : gmap string DataFrame)
  : Outcome (option Z * gmap string DataFrame) :=
  let frame := if index then with_index frame else frame in
  let written := Some (Z.of_nat (length (df_rows frame))) in
  if negb (bool_decide (if_exists ∈ ["fail"; "replace"; "append"])) then
    Raised (ValueError "not valid for if_exists")
  else
    match db !! name with
    | None => Returned (written, <[name := frame]> db)
    | Some stored =>
        if String.eqb if_exists "fail" then
          Raised (ValueError "Table already exists.")
        else if String.eqb if_exists "replace" then
          Returned (written, <[name := frame]> db)
        else if forallb (fun c => bool_decide (c ∈ df_columns stored))
                        (df_columns frame) then
          Returned
            (written,
             <[name := {| df_columns := df_columns stored;
                          df_rows :=
                            df_rows stored
                              ++ map (aligned_row (df_columns stored)
                                        (df_columns frame))
                                     (df_rows frame) |}]> db)
        else Raised (ProgrammingError "column of relation does not exist")
    end.

(** ** Reference environment: the world and the interpreter *)

Record World : Type := {
  wall_clock : nat -> Q;
  clock_reads : nat;
  stdout : list string;
  tables : gmap string DataFrame;
  transaction : option (gmap string DataFrame);
  log : list Entry
}.

Definition set_clock_reads (n : nat) (w : World) : World :=
  {| wall_clock := wall_clock w; clock_reads := n; stdout := stdout w;
     tables := tables w; transaction := transaction w; log := log w |}.

Definition set_stdout (out : list string) (w : World) : World :=
  {| wall_clock := wall_clock w; clock_reads := clock_reads w; stdout := out;
     tables := tables w; transaction := transaction w; log := log w |}.

Definition set_tables (db : gmap string DataFrame) (w : World) : World :=
  {| wall_clock := wall_clock w; clock_reads := clock_reads w;
     stdout := stdout w; tables := db; transaction := transaction w;
     log := log w |}.

Definition set_transaction (t : option (gmap string DataFrame)) (w : World)
  : World :=
  {| wall_clock := wall_clock w; clock_reads := clock_reads w;
     stdout := stdout w; tables := tables w; transaction := t; log := log w |}.

Definition set_log (l : list Entry) (w : World) : World :=
  {| wall_clock := wall_clock w; clock_reads := clock_reads w;
     stdout := stdout w; tables := tables w; transaction := transaction w;
     log := l |}.

(** The names the live schema reports. *)
Definition table_names (w : World) : list string :=
  (map_to_list (tables w)).*1.

(** What each external call does to the world.  [to_sql] and
    [read_sql_query] work on committed data in a transaction of their own;
    a connection works on a private copy until [commit]. *)
Definition handle {X : Type} (e : Event X) (w : World) : Outcome X * World :=
  match e in Event X return Outcome X * World with
  | time_time =>
      (Returned (wall_clock w (clock_reads w)),
       set_clock_reads (S (clock_reads w)) w)
  | print line => (Returned tt, set_stdout (stdout w ++ [line]) w)
  | raise_ ex => (Raised ex, w)
  | inspect engine => (Returned {| inspector_bind := engine |}, w)
  | get_table_names _ => (Returned (table_names w), w)
  | to_sql dataframe name _ if_exists index =>
      match pandas_to_sql dataframe name if_exists index (tables w) with
      | Returned (n, db) => (Returned n, set_tables db w)
      | Raised ex => (Raised ex, w)
      end
  | read_sql_query sql _ =>
      match parse sql with
      | Some (SelectAll t) =>
          match tables w !! t with
          | Some d => (Returned d, w)
          | None => (Raised (ProgrammingError "relation does not exist"), w)
          end
      | Some _ =>
          (Raised (ResourceClosedError "This result object does not return rows"),
           w)
      | None => (Raised (ProgrammingError "syntax error"), w)
      end
  | connect engine =>
      (Returned {| connection_engine := engine |}, set_transaction None w)
  | conn_execute _ statement parameters =>
      match parse (clause_text statement) with
      | Some st =>
          match run_statement st parameters
                  (default (tables w) (transaction w)) with
          | Returned (cursor, db) =>
              (Returned cursor, set_transaction (Some db) w)
          | Raised ex => (Raised ex, w)
          end
      | None => (Raised (ProgrammingError "syntax error"), w)
      end
  | conn_commit _ =>
      (Returned tt,
       match transaction w with
       | Some db => set_transaction None (set_tables db w)
       | None => w
       end)
  | conn_close _ => (Returned tt, set_transaction None w)
  end.

(** Every call is logged, then handled. *)
Definition perform {X : Type} (e : Event X) (w : World) : Outcome X * World :=
  handle e (set_log (log w ++ [entry e]) w).

Fixpoint exec {R : Type} (p : Prog R) (w : World) : Outcome R * World :=
  match p with
  | Return r => (Returned r, w)
  | Call e k =>
      match perform e w with
      | (Returned x, w') => exec (k x) w'
      | (Raised ex, w') => (Raised ex, w')
      end
  | TryFinally body final k =>
      let '(o, w1) := exec body w in
      match exec final w1 with
      | (Raised ex, w2) => (Raised ex, w2)
      | (Returned _, w2) =>
          match o with
          | Returned x => exec (k x) w2
          | Raised ex => (Raised ex, w2)
          end
      end
  end.

(** ** Notions used in the statements *)

(** The line the decorator prints for two clock readings. *)
Definition timing_line (start_time end_time : Q) : string :=
  "Время выполнения: "
    +:+ strftime "%H-%M-%S" (gmtime (end_time - start_time)).

(** The world right after the decorator took its start timestamp. *)
Definition started (w : World) : World :=
  set_clock_reads (S (clock_reads w)) (set_log (log w ++ [entry time_time]) w).

(** The timing line of a call during which the clock is read only by the
    decorator. *)
Definition elapsed_line (w : World) : string :=
  timing_line (wall_clock w (clock_reads w)) (wall_clock w (S (clock_reads w))).

(** [p] returns [r] from [w], prints exactly [lines], leaves the stored
    tables and the open transaction as they were, and makes no call that
    writes to the database. *)
Definition reports_only {R : Type} (p : Prog R) (w : World) (r : R)
  (lines : list string) : Prop :=
  exists w' new,
    exec p w = (Returned r, w')
    /\ tables w' = tables w
    /\ transaction w' = transaction w
    /\ stdout w' = stdout w ++ lines
    /\ log w' = log w ++ new
    /\ forallb (fun c => negb (writes_database c)) new = true.

(** The first calls of a guarded method: the decorator's clock reading,
    then the schema query. *)
Definition schema_query (self : DatabaseAPI) : list Entry :=
  [ entry time_time;
    entry (inspect (engine self));
    entry (get_table_names {| inspector_bind := engine self |}) ].

(** The calls that reach the stored tables or the connection. *)
Definition touches_database (c : Entry) : bool :=
  match c with
  | entry (to_sql _ _ _ _ _) => true
  | entry (read_sql_query _ _) => true
  | entry (connect _) => true
  | entry (conn_execute _ _ _) => true
  | entry (conn_commit _) => true
  | entry (conn_close _) => true
  | _ => false
  end.

(** Whatever the world, [p] starts with one schema query, never asks
    again, and goes on to the database only if the names just returned
    satisfy [allowed]. *)
Definition guarded_by {R : Type} (p : Prog R) (self : DatabaseAPI)
  (allowed : list string -> Prop) : Prop :=
  forall w, exists rest,
    log (exec p w).2 = log w ++ schema_query self ++ rest
    /\ forallb (fun c => negb (queries_schema c)) rest = true
    /\ (existsb touches_database rest = true -> allowed (table_names w)).

(** The result of [p] and the tables it leaves are a function of the
    tables it finds: nothing remembered from earlier calls enters. *)
Definition depends_on_live_tables_only {R : Type} (p : Prog R) : Prop :=
  forall w1 w2,
    tables w1 = tables w2 ->
    (exec p w1).1 = (exec p w2).1
    /\ tables (exec p w1).2 = tables (exec p w2).2.

(** What [delete_from_table] does once its guards have passed: it opens a
    connection and executes the statement built from every listed column,
    with [conditions] as the bind parameters.  If the execution returns,
    the result is committed, the connection closed and success reported;
    if it raises, the connection is closed and the stored tables are as
    before. *)
Definition sends_delete (self : DatabaseAPI) (table_name : string)
  (columns : list string) (conditions : gmap string Value) (w : World)
  : Prop :=
  let conn := {| connection_engine := engine self |} in
  let statement :=
    text ("DELETE FROM " +:+ table_name +:+ " WHERE "
            +:+ String.concat " AND "
                  (map (fun column => column +:+ " = :" +:+ column) columns)) in
  let sent :=
    schema_query self
      ++ [ entry (connect (engine self));
           entry (conn_execute conn statement conditions) ] in
  exists o w',
    exec (delete_from_table self table_name columns conditions) w = (o, w')
    /\ match o with
       | Returned _ =>
           log w' = log w ++ sent
                      ++ [ entry (conn_commit conn); entry (conn_close conn);
                           entry (print ("Данные в таблице " +:+ table_name
                                           +:+ " успешно удалены."));
                           entry time_time;
                           entry (print (elapsed_line w)) ]
           /\ transaction w' = None
           /\ exists st cursor,
                parse (clause_text statement) = Some st
                /\ run_statement st conditions (tables w)
                   = Returned (cursor, tables w')
       | Raised _ =>
           log w' = log w ++ sent ++ [ entry (conn_close conn) ]
           /\ tables w' = tables w
       end.

(** The WHERE clause as the specification words it: one equality test
    for each listed column that has an entry in [conditions], the other
    listed columns being left out. *)
Definition where_clause_of_spec (columns : list string)
  (conditions : gmap string Value) : string :=
  String.concat " AND "
    (map (fun column => column +:+ " = :" +:+ column)
         (List.filter (fun column => bool_decide (is_Some (conditions !! column)))
                      columns)).

(** [create_table] followed at once by [read_sql] returns the frame that
    was given: the same columns, the same rows in the same order. *)
Definition reads_back (self : DatabaseAPI) (table_name : string)
  (dataframe : DataFrame) (w : World) : Prop :=
  exists w',
    exec (_ ← create_table self table_name dataframe;
          read_sql self table_name) w
    = (Returned (Some dataframe), w').

(** Characters that do not end a token. *)
Definition no_space (c : ascii) : bool := negb (Ascii.eqb c " ").

(** The tokens of the tests [column = :column] joined by AND. *)
Fixpoint test_tokens (columns : list string) : list string :=
  match columns with
  | [] => []
  | [c] => [c; "="; ":" +:+ c]
  | c :: rest => c :: "=" :: (":" +:+ c) :: "AND" :: test_tokens rest
  end.

(** ** Further notions: the fields of a formatted time *)

(** Reads the two digits at [pos] and [pos + 1] of a formatted time. *)
Definition field_at (pos : nat) (formatted : string) : option Z :=
  match String.get pos formatted, String.get (S pos) formatted with
  | Some a, Some b =>
      match digit_value a, digit_value b with
      | Some x, Some y => Some (10 * x + y)
      | _, _ => None
      end
  | _, _ => None
  end.

(** ** Any environment

    The programs can also be run against any behaviour of the
    collaborators: [respond] says how a call is answered in a state of the
    outside world, whatever that world is.  The run records every call
    with whether it returned. *)

Inductive Step : Type :=
| step {X : Type} (e : Event X) (returned : bool).

Section AnyEnvironment.

Context {St : Type}.
Variable respond : forall X : Type, Event X -> St -> Outcome X * St.

Fixpoint run {R : Type} (p : Prog R) (s : St) : Outcome R * St * list Step :=
  match p with
  | Return r => (Returned r, s, [])
  | Call e k =>
      match respond _ e s with
      | (Returned x, s1) =>
          let '(o, s2, tr) := run (k x) s1 in (o, s2, step e true :: tr)
      | (Raised ex, s1) => (Raised ex, s1, [step e false])
      end
  | TryFinally body final k =>
      let '(o, s1, t1) := run body s in
      let '(o2, s2, t2) := run final s1 in
      match o2 with
      | Raised ex => (Raised ex, s2, t1 ++ t2)
      | Returned _ =>
          match o with
          | Returned x =>
              let '(o3, s3, t3) := run (k x) s2 in (o3, s3, t1 ++ t2 ++ t3)
          | Raised ex => (Raised ex, s2, t1 ++ t2)
          end
      end
  end.

End AnyEnvironment.

(** A connection was handed out. *)
Definition opened (st : Step) : bool :=
  match st with
  | step (connect _) returned => returned
  | _ => false
  end.

(** A close was called, whether or not it returned. *)
Definition close_called (st : Step) : bool :=
  match st with
  | step (conn_close _) _ => true
  | _ => false
  end.

Definition commit_called (st : Step) : bool :=
  match st with
  | step (conn_commit _) _ => true
  | _ => false
  end.

(** A statement was executed and its execution returned. *)
Definition executed (st : Step) : bool :=
  match st with
  | step (conn_execute _ _ _) returned => returned
  | _ => false
  end.

Definition asks_schema (st : Step) : bool :=
  match st with
  | step (inspect _) _ => true
  | step (get_table_names _) _ => true
  | _ => false
  end.

(** The calls through which the facade changes stored data. *)
Definition write_called (st : Step) : bool :=
  match st with
  | step (to_sql _ _ _ _ _) _ => true
  | step (connect _) _ => true
  | step (conn_execute _ _ _) _ => true
  | step (conn_commit _) _ => true
  | _ => false
  end.

Definition query_called (st : Step) : bool :=
  match st with
  | step (read_sql_query _ _) _ => true
  | _ => false
  end.

(** A line reached the console. *)
Definition printed (st : Step) : bool :=
  match st with
  | step (print _) returned => returned
  | _ => false
  end.

(** Whether every commit in the trace comes right after an execution that
    returned; [after_execution] tells it of the step before the trace. *)
Fixpoint commits_after (after_execution : bool) (tr : list Step) : bool :=
  match tr with
  | [] => true
  | st :: rest =>
      (if commit_called st then after_execution else true)
        && commits_after (executed st) rest
  end.

(** Whatever the collaborators do, [p] calls close once for every
    connection it was handed, and commits only right after an execution
    that returned. *)
Definition closes_what_it_opens {R : Type} (p : Prog R) : Prop :=
  forall (St : Type) (respond : forall X : Type, Event X -> St -> Outcome X * St)
         (s : St),
    length (List.filter opened (run respond p s).2)
    = length (List.filter close_called (run respond p s).2)
    /\ commits_after false (run respond p s).2 = true.

(** Whatever the collaborators do, [execute] never asks the schema.  When
    it returns, its calls were exactly: clock, connect, execute the text
    as given with no parameters, commit, close, clock, print, all of which
    returned, and its result is what the execution answered.  When it
    raises, no line reached the console. *)
Definition runs_raw (self : DatabaseAPI) (query : string) : Prop :=
  forall (St : Type) (respond : forall X : Type, Event X -> St -> Outcome X * St)
         (s : St),
    forallb (fun st => negb (asks_schema st))
      (run respond (execute self query) s).2 = true
    /\ match (run respond (execute self query) s).1.1 with
       | Returned cursor =>
           exists conn line s2 s3,
             (run respond (execute self query) s).2
             = [ step time_time true;
                 step (connect (engine self)) true;
                 step (conn_execute conn (text query) ∅) true;
                 step (conn_commit conn) true;
                 step (conn_close conn) true;
                 step time_time true;
                 step (print line) true ]
             /\ respond _ (conn_execute conn (text query) ∅) s2
                = (Returned cursor, s3)
       | Raised _ =>
           forallb (fun st => negb (printed st))
             (run respond (execute self query) s).2 = true
       end.

(** Whatever the collaborators do, [read_sql] makes none of the calls
    through which the facade writes; a frame it returns is the answer to
    the query [SELECT * FROM] followed by the name as given, and it
    returns [None] only without having sent a query. *)
Definition reads_only (self : DatabaseAPI) (table_name : string) : Prop :=
  forall (St : Type) (respond : forall X : Type, Event X -> St -> Outcome X * St)
         (s : St),
    forallb (fun st => negb (write_called st))
      (run respond (read_sql self table_name) s).2 = true
    /\ match (run respond (read_sql self table_name) s).1.1 with
       | Returned (Some frame) =>
           exists s2 s3,
             respond _ (read_sql_query ("SELECT * FROM " +:+ table_name)
                          (engine self)) s2
             = (Returned frame, s3)
       | Returned None =>
           forallb (fun st => negb (query_called st))
             (run respond (read_sql self table_name) s).2 = true
       | Raised _ => True
       end.

(** ** Concrete inputs *)

Definition sample_api : DatabaseAPI :=
  new_DatabaseAPI "localhost" "user" "secret" "shop".

(** The dataset of [api_example_demo.py]. *)
Definition sample_frame : DataFrame :=
  {| df_columns := ["column1"; "column2"];
     df_rows := [ [VStr "value1"; VStr "value1"];
                  [VStr "value2"; VStr "value2"];
                  [VStr "value3"; VStr "value3"] ] |}.

(** A world whose clock advances by ninety minutes at each reading. *)
Definition world_of (db : gmap string DataFrame) : World :=
  {| wall_clock := fun n => inject_Z (5400 * Z.of_nat n);
     clock_reads := 0;
     stdout := [];
     tables := db;
     transaction := None;
     log := [] |}.

Definition empty_world : World := world_of ∅.

Definition sample_world : World := world_of {[ "sample_table" := sample_frame ]}.

Definition spaced_world : World := world_of {[ "a b" := sample_frame ]}.

(** An operation that fails after printing a line. *)
Definition failing_operation (arguments : list Value * gmap string Value)
  : Prog Z :=
  _ ← call (print "working");
  x ← call (raise_ (UserException "RuntimeError"));
  match x : Empty_set with end.

(** An operation that returns the number of its positional arguments. *)
Definition counting_operation (arguments : list Value * gmap string Value)
  : Prog Z :=
  _ ← call (print "working");
  mret (Z.of_nat (length arguments.1)).

(** A second frame with the columns of the demonstration table. *)
Definition later_frame : DataFrame :=
  {| df_columns := ["column1"; "column2"];
     df_rows := [ [VStr "value4"; VStr "value1"] ] |}.

(** A world whose clock advances by 26 h 03 min 04 s at each reading. *)
Definition slow_world : World :=
  {| wall_clock := fun n => inject_Z (93784 * Z.of_nat n);
     clock_reads := 0;
     stdout := [];
     tables := ∅;
     transaction := None;
     log := [] |}.

(** * Properties *)

(** ** Running programs *)

Lemma exec_bind {A B : Type} (p : Prog A) (f : A -> Prog B) (w : World) :
  exec (bind p f) w =
    match exec p w with
    | (Returned a, w1) => exec (f a) w1
    | (Raised ex, w1) => (Raised ex, w1)
    end.
Proof.
  revert B f w.
  induction p as [A r | A X e k IH | A X body IHb final IHf k IHk];
    intros B f w; simpl.
  - reflexivity.
  - destruct (perform e w) as [[x|ex] w']; [apply IH | reflexivity].
  - destruct (exec body w) as [o w1].
    destruct (exec final w1) as [[u|ex] w2]; [|reflexivity].
    destruct o; [apply IHk | reflexivity].
Qed.

(** The decorated call, in terms of one run of the wrapped operation. *)
Lemma exec_measure_execution_time {A R : Type} (func : A -> Prog R) (a : A)
  (w : World) :
  exec (measure_execution_time func a) w =
    match exec (func a) (started w) with
    | (Returned r, w2) =>
        (Returned r,
         set_stdout
           (stdout w2
              ++ [timing_line (wall_clock w (clock_reads w))
                              (wall_clock w2 (clock_reads w2))])
           (set_log
              (log w2
                 ++ [entry time_time;
                     entry (print (timing_line (wall_clock w (clock_reads w))
                                     (wall_clock w2 (clock_reads w2))))])
              (set_clock_reads (S (clock_reads w2)) w2)))
    | (Raised ex, w2) => (Raised ex, w2)
    end.
Proof.
  unfold measure_execution_time, mbind, Prog_bind, mret, Prog_ret.
  rewrite exec_bind.
  change (exec (call time_time) w)
    with (Returned (wall_clock w (clock_reads w)), started w).
  cbv beta iota. rewrite exec_bind.
  destruct (exec (func a) (started w)) as [[r|ex] w2]; [|reflexivity].
  unfold timing_line. simpl. unfold perform, set_stdout, set_log, set_clock_reads.
  simpl. rewrite <- app_assoc. reflexivity.
Qed.

(** C6 (as amended): the decorated operation runs the original operation
    once, on the arguments it was given, right after taking the start
    timestamp.  When that run returns, the decorator reads the clock again,
    prints the formatted duration and returns the same result; when it
    raises, the same exception leaves the decorator and nothing more
    happens. *)
Theorem measure_execution_time_runs_once {A R : Type} (func : A -> Prog R)
  (arguments : A) (w : World) :
  match exec (func arguments) (started w) with
  | (Returned result, w2) =>
      let line := timing_line (wall_clock w (clock_reads w))
                              (wall_clock w2 (clock_reads w2)) in
      exists w3,
        exec (measure_execution_time func arguments) w = (Returned result, w3)
        /\ stdout w3 = stdout w2 ++ [line]
        /\ log w3 = log w2 ++ [entry time_time; entry (print line)]
        /\ clock_reads w3 = S (clock_reads w2)
        /\ tables w3 = tables w2
        /\ transaction w3 = transaction w2
  | (Raised ex, w2) =>
      exec (measure_execution_time func arguments) w = (Raised ex, w2)
  end.
Proof.
  rewrite exec_measure_execution_time.
  destruct (exec (func arguments) (started w)) as [[result|ex] w2];
    [|reflexivity].
  eexists. split; [reflexivity|]. simpl. repeat split.
Qed.

(** C6 (as stated) fails: an operation that raises is run once and its
    exception is passed on, but no duration is printed. *)
Lemma failing_operation_prints_no_duration :
  let run := exec (measure_execution_time failing_operation ([VInt 1], ∅))
                  empty_world in
  run.1 = Raised (UserException "RuntimeError")
  /\ stdout run.2 = ["working"]
  /\ log run.2 = [ entry time_time; entry (print "working");
                   entry (raise_ (UserException "RuntimeError")) ].
Proof. repeat split. Qed.

(** C10: when the wrapped operation raises, the decorator passes the
    exception on from the very world the operation left: no end timestamp
    is taken and no timing line is printed. *)
Theorem failure_skips_timing {A R : Type} (func : A -> Prog R)
  (arguments : A) (w w2 : World) (ex : Exception) :
  exec (func arguments) (started w) = (Raised ex, w2) ->
  exec (measure_execution_time func arguments) w = (Raised ex, w2)
  /\ stdout (exec (measure_execution_time func arguments) w).2 = stdout w2
  /\ clock_reads (exec (measure_execution_time func arguments) w).2
     = clock_reads w2
  /\ log (exec (measure_execution_time func arguments) w).2 = log w2.
Proof.
  intros H. rewrite exec_measure_execution_time, H. repeat split.
Qed.

Lemma failure_skips_timing_witness :
  let w2 :=
    set_stdout ["working"]
      (set_log [ entry time_time; entry (print "working");
                 entry (raise_ (UserException "RuntimeError")) ]
         (set_clock_reads 1 sample_world)) in
  exec (failing_operation ([], ∅)) (started sample_world)
  = (Raised (UserException "RuntimeError"), w2)
  /\ exec (measure_execution_time failing_operation ([], ∅)) sample_world
     = (Raised (UserException "RuntimeError"), w2).
Proof.
  split; [reflexivity|].
  apply (proj1 (failure_skips_timing failing_operation ([], ∅) sample_world
                  _ _ eq_refl)).
Defined.

(** ** The formatted duration *)

Lemma Qfloor_div_pos (q : Q) (n : positive) :
  Qfloor (q / inject_Z (Z.pos n)) = Qfloor q / Z.pos n.
Proof.
  destruct q as [a d]. unfold Qdiv, Qinv, Qmult, inject_Z, Qfloor. simpl.
  rewrite Z.mul_1_r, Pos2Z.inj_mul, Z.div_div by lia. reflexivity.
Qed.

Lemma Qfloor_add_day (q : Q) : Qfloor (q + 86400) = Qfloor q + 86400.
Proof.
  destruct q as [a d]. unfold Qplus, Qfloor. simpl Qnum. simpl Qden.
  rewrite Pos.mul_1_r, Z.mul_1_r, Z.div_add by lia. reflexivity.
Qed.

Lemma hour_of_day (t : Z) : (t mod 86400) / 3600 = (t / 3600) mod 24.
Proof.
  rewrite (Z.div_mod t 3600) at 1 by lia.
  pose proof (Z.mod_pos_bound t 3600 ltac:(lia)).
  pose proof (Z.mod_pos_bound (t / 3600) 24 ltac:(lia)).
  pose proof (Z.div_mod (t / 3600) 24 ltac:(lia)).
  set (h := t / 3600) in *. set (r := t mod 3600) in *.
  set (q := h / 24) in *. set (k := h mod 24) in *.
  replace (3600 * h + r) with ((3600 * k + r) + q * 86400) by lia.
  rewrite Z.mod_add by lia. rewrite Z.mod_small by lia.
  symmetry. apply Z.div_unique with r; lia.
Qed.

Lemma hours_field_two_digits (n : Z) (rest : string) :
  0 <= n < 24 -> hours_field (two_digits n +:+ rest) = Some n.
Proof.
  intros H.
  assert (Hn : In n (map Z.of_nat (seq 0 24))).
  { apply in_map_iff. exists (Z.to_nat n). split; [lia|]. apply in_seq. lia. }
  simpl in Hn.
  repeat (destruct Hn as [<-|Hn]; [reflexivity|]). destruct Hn.
Qed.

(** The hours field of a formatted duration is the number of whole hours
    modulo 24, and a day more formats to the same text. *)
Lemma hours_field_wraps (elapsed : Q) :
  hours_field (strftime "%H-%M-%S" (gmtime elapsed))
  = Some (Qfloor (elapsed / 3600) mod 24)
  /\ strftime "%H-%M-%S" (gmtime (elapsed + 86400))
     = strftime "%H-%M-%S" (gmtime elapsed).
Proof.
  split.
  - change (strftime "%H-%M-%S" (gmtime elapsed))
      with (two_digits (Qfloor elapsed mod 86400 / 3600)
              +:+ String "-" (directive "M" (gmtime elapsed)
              +:+ String "-" (directive "S" (gmtime elapsed) +:+ ""))).
    rewrite hour_of_day.
    change (elapsed / 3600)%Q with (elapsed / inject_Z (Z.pos 3600))%Q.
    rewrite Qfloor_div_pos.
    apply hours_field_two_digits, Z.mod_pos_bound. lia.
  - unfold gmtime. rewrite Qfloor_add_day.
    replace (Qfloor elapsed + 86400) with (Qfloor elapsed + 1 * 86400) by lia.
    rewrite Z.mod_add by lia. reflexivity.
Qed.

(** C9: when the wrapped operation returns, the line the decorator prints
    is the fixed prefix followed by the formatted duration between its two
    clock readings; the hours field of that text is the whole hours of the
    duration modulo 24, and a duration one day longer would print the
    same text. *)
Theorem decorator_prints_hours_modulo_24 {A R : Type} (func : A -> Prog R)
  (arguments : A) (w w2 : World) (result : R) :
  exec (func arguments) (started w) = (Returned result, w2) ->
  let elapsed :=
    (wall_clock w2 (clock_reads w2) - wall_clock w (clock_reads w))%Q in
  exists formatted w3,
    exec (measure_execution_time func arguments) w = (Returned result, w3)
    /\ stdout w3 = stdout w2 ++ [ "Время выполнения: " +:+ formatted ]
    /\ hours_field formatted = Some (Qfloor (elapsed / 3600) mod 24)
    /\ formatted = strftime "%H-%M-%S" (gmtime (elapsed + 86400)).
Proof.
  intros H elapsed.
  exists (strftime "%H-%M-%S" (gmtime elapsed)).
  rewrite exec_measure_execution_time, H.
  eexists. split; [reflexivity|]. split; [reflexivity|].
  destruct (hours_field_wraps elapsed) as [Hh Hw].
  split; [exact Hh | symmetry; exact Hw].
Qed.

Lemma decorator_prints_hours_modulo_24_witness :
  let arguments : list Value * gmap string Value := ([VInt 1; VInt 2], ∅) in
  let w2 :=
    set_stdout ["working"]
      (set_log [ entry time_time; entry (print "working") ]
         (set_clock_reads 1 slow_world)) in
  exec (counting_operation arguments) (started slow_world) = (Returned 2, w2)
  /\ exists w3,
       exec (measure_execution_time counting_operation arguments) slow_world
       = (Returned 2, w3)
       /\ stdout w3 = [ "working"; "Время выполнения: 02-03-04" ].
Proof.
  intros arguments w2.
  assert (H : exec (counting_operation arguments) (started slow_world)
              = (Returned 2, w2)) by reflexivity.
  split; [exact H|].
  destruct (decorator_prints_hours_modulo_24 counting_operation arguments
              slow_world w2 2 H) as (formatted & w3 & He & Hs & _ & Hw).
  exists w3. split; [exact He|]. rewrite Hs, Hw. reflexivity.
Defined.

(** ** The existence guard *)

Lemma in_table_names (t : string) (w : World) :
  t ∈ table_names w <-> is_Some (tables w !! t).
Proof.
  unfold table_names. rewrite list_elem_of_fmap. split.
  - intros [[k d] [-> Hin]]. apply elem_of_map_to_list in Hin. eauto.
  - intros [d Hd]. exists (t, d). split; [reflexivity|].
    by apply elem_of_map_to_list.
Qed.

Lemma absent_lookup (t : string) (w : World) :
  t ∉ table_names w -> tables w !! t = None.
Proof.
  rewrite in_table_names. destruct (tables w !! t); [|reflexivity].
  intros H. destruct H. eauto.
Qed.

Lemma present_in (t : string) (d : DataFrame) (w : World) :
  tables w !! t = Some d -> t ∈ table_names w.
Proof. rewrite in_table_names. eauto. Qed.

(** Steps through the calls of a method body up to its first branch. *)
Ltac run_calls :=
  unfold mbind, Prog_bind, mret, Prog_ret;
  repeat (rewrite exec_bind; simpl exec;
          unfold perform; simpl handle; cbv beta iota).

(** Closes a [reports_only] goal once the run has been computed. *)
Ltac report :=
  simpl; eexists _, _; split; [reflexivity|]; simpl;
  unfold elapsed_line; rewrite <- ?app_assoc; repeat split.

(** C1: on a table name the schema does not list, [insert_sql],
    [truncate_table] and [delete_from_table] print their message and
    return, and [read_sql] prints its message and returns [None]; none of
    them makes a writing call and the stored tables stay as they were. *)
Theorem absent_table_is_reported (self : DatabaseAPI) (table_name : string)
  (dataframe : DataFrame) (mode : string) (columns : list string)
  (conditions : gmap string Value) (w : World) :
  table_name ∉ table_names w ->
  reports_only (insert_sql self table_name dataframe mode) w tt
    [ "Таблица " +:+ table_name
        +:+ " не существует. Данные не могут быть добавлены.";
      elapsed_line w ]
  /\ reports_only (truncate_table self table_name) w tt
       [ "Таблица " +:+ table_name
           +:+ " не существует. Нельзя выполнить очистку.";
         elapsed_line w ]
  /\ reports_only (delete_from_table self table_name columns conditions) w tt
       [ "Таблица " +:+ table_name
           +:+ " не существует. Невозможно удалить данные.";
         elapsed_line w ]
  /\ reports_only (read_sql self table_name) w None
       [ "Таблица " +:+ table_name
           +:+ " не существует. Невозможно прочитать данные.";
         elapsed_line w ].
Proof.
  intros H. unfold reports_only.
  unfold insert_sql, truncate_table, delete_from_table, read_sql.
  rewrite !exec_measure_execution_time.
  unfold Undecorated.insert_sql, Undecorated.truncate_table,
    Undecorated.delete_from_table, Undecorated.read_sql.
  run_calls.
  rewrite !bool_decide_true by exact H.
  split; [|split; [|split]]; report.
Qed.

Lemma absent_table_is_reported_witness :
  ("orders" ∉ table_names sample_world)
  /\ reports_only (read_sql sample_api "orders") sample_world None
       [ "Таблица orders не существует. Невозможно прочитать данные.";
         "Время выполнения: 01-30-00" ].
Proof.
  assert (H : "orders" ∉ table_names sample_world).
  { apply (bool_decide_unpack _). vm_compute. exact I. }
  split; [exact H|].
  apply (absent_table_is_reported sample_api "orders" sample_frame "append"
           ["column1"] {[ "column1" := VStr "value1" ]} sample_world H).
Defined.

(** C4: on an existing table, a mode other than ["append"] and
    ["replace"] makes [insert_sql] return without any message of its own
    and without a writing call; only the decorator's timing line is
    printed. *)
Theorem unknown_mode_is_silent (self : DatabaseAPI) (table_name : string)
  (dataframe : DataFrame) (mode : string) (w : World) :
  table_name ∈ table_names w ->
  mode ≠ "append" ->
  mode ≠ "replace" ->
  reports_only (insert_sql self table_name dataframe mode) w tt
    [ elapsed_line w ].
Proof.
  intros H Ha Hr. unfold reports_only, insert_sql.
  rewrite exec_measure_execution_time.
  unfold Undecorated.insert_sql. run_calls.
  rewrite bool_decide_false by (intros Hn; apply Hn; exact H).
  apply String.eqb_neq in Ha, Hr. rewrite Ha, Hr.
  report.
Qed.

Lemma unknown_mode_is_silent_witness :
  ("sample_table" ∈ table_names sample_world)
  /\ "upsert" ≠ "append"
  /\ "upsert" ≠ "replace"
  /\ reports_only (insert_sql sample_api "sample_table" sample_frame "upsert")
       sample_world tt [ "Время выполнения: 01-30-00" ].
Proof.
  assert (H : "sample_table" ∈ table_names sample_world).
  { apply (bool_decide_unpack _). vm_compute. exact I. }
  assert (Ha : "upsert" ≠ "append") by discriminate.
  assert (Hr : "upsert" ≠ "replace") by discriminate.
  repeat split; [exact H | exact Ha | exact Hr |].
  apply (unknown_mode_is_silent sample_api "sample_table" sample_frame
           "upsert" sample_world H Ha Hr).
Defined.

(** C5: on an existing table, [delete_from_table] with no columns or with
    no conditions prints that nothing was specified and returns; no
    statement is executed and the stored tables stay as they were. *)
Theorem empty_delete_is_reported (self : DatabaseAPI) (table_name : string)
  (columns : list string) (conditions : gmap string Value) (w : World) :
  table_name ∈ table_names w ->
  columns = [] \/ conditions = ∅ ->
  reports_only (delete_from_table self table_name columns conditions) w tt
    [ "Не указаны столбцы и условия для удаления."; elapsed_line w ].
Proof.
  intros H Hempty. unfold reports_only, delete_from_table.
  rewrite exec_measure_execution_time.
  unfold Undecorated.delete_from_table. run_calls.
  rewrite bool_decide_false by (intros Hn; apply Hn; exact H).
  assert (Hor : bool_decide (columns = []) || bool_decide (conditions = ∅)
                = true).
  { destruct Hempty as [-> | ->].
    - reflexivity.
    - rewrite (bool_decide_true (∅ = ∅)) by reflexivity. apply orb_true_r. }
  rewrite Hor. report.
Qed.

Lemma empty_delete_is_reported_witness :
  ("sample_table" ∈ table_names sample_world)
  /\ (@nil string = [] \/
      {[ "column1" := VStr "value1" ]} = (∅ : gmap string Value))
  /\ reports_only
       (delete_from_table sample_api "sample_table" []
          {[ "column1" := VStr "value1" ]})
       sample_world tt
       [ "Не указаны столбцы и условия для удаления.";
         "Время выполнения: 01-30-00" ].
Proof.
  assert (H : "sample_table" ∈ table_names sample_world).
  { apply (bool_decide_unpack _). vm_compute. exact I. }
  assert (He : @nil string = [] \/
               {[ "column1" := VStr "value1" ]} = (∅ : gmap string Value))
    by (left; reflexivity).
  repeat split; [exact H | exact He |].
  apply (empty_delete_is_reported sample_api "sample_table" []
           {[ "column1" := VStr "value1" ]} sample_world H He).
Defined.

(** ** The DELETE statement *)

Arguments parse : simpl never.
Arguments run_statement : simpl never.
Arguments pandas_to_sql : simpl never.
Arguments table_names : simpl never.

(** C2 (as amended): on an existing table, with columns and conditions
    both given, the statement executed is the DELETE whose WHERE clause
    joins by AND one test [column = :column] for every listed column, in
    order, and [conditions] is passed whole as its parameters; it is
    committed when its execution returns. *)
Theorem delete_statement_sent (self : DatabaseAPI) (table_name : string)
  (columns : list string) (conditions : gmap string Value) (w : World) :
  table_name ∈ table_names w ->
  columns ≠ [] ->
  conditions ≠ ∅ ->
  sends_delete self table_name columns conditions w.
Proof.
  intros H Hc Hd. unfold sends_delete, delete_from_table.
  rewrite exec_measure_execution_time.
  unfold Undecorated.delete_from_table. run_calls.
  rewrite bool_decide_false by (intros Hn; apply Hn; exact H).
  rewrite (bool_decide_false (columns = [])),
    (bool_decide_false (conditions = ∅)) by assumption.
  cbv beta iota. simpl orb. cbv iota.
  simpl exec. unfold perform. simpl handle. cbv beta iota.
  unfold Undecorated.delete_query.
  destruct (parse _) as [st|] eqn:Hp;
    [destruct (run_statement _ _ _) as [[cursor db]|ex] eqn:Hr|];
    simpl; eexists _, _; (split; [reflexivity|]); simpl;
    unfold schema_query, elapsed_line; rewrite <- ?app_assoc; simpl;
    repeat split.
  exists st, cursor. split; [reflexivity | exact Hr].
Qed.

Lemma delete_statement_sent_witness :
  ("sample_table" ∈ table_names sample_world)
  /\ ["column1"] ≠ []
  /\ {[ "column1" := VStr "value1" ]} ≠ (∅ : gmap string Value)
  /\ sends_delete sample_api "sample_table" ["column1"]
       {[ "column1" := VStr "value1" ]} sample_world.
Proof.
  assert (H : "sample_table" ∈ table_names sample_world).
  { apply (bool_decide_unpack _). vm_compute. exact I. }
  assert (Hc : ["column1"] ≠ []) by discriminate.
  assert (Hd : {[ "column1" := VStr "value1" ]} ≠ (∅ : gmap string Value)).
  { apply (bool_decide_unpack _). vm_compute. exact I. }
  repeat split; [exact H | exact Hc | exact Hd |].
  apply (delete_statement_sent sample_api "sample_table" ["column1"]
           {[ "column1" := VStr "value1" ]} sample_world H Hc Hd).
Defined.

(** C2 (as stated) fails: a listed column without an entry in
    [conditions] is not left out of the WHERE clause; the statement names
    it, its parameter has no value, and the execution raises with nothing
    deleted. *)
Lemma listed_column_without_condition_is_not_ignored :
  let columns := ["column1"; "column2"] in
  let conditions : gmap string Value := {[ "column1" := VStr "value1" ]} in
  let run := exec (delete_from_table sample_api "sample_table" columns
                     conditions) sample_world in
  clause_text (Undecorated.delete_query "sample_table" columns)
  = "DELETE FROM sample_table WHERE column1 = :column1 AND column2 = :column2"
  /\ "DELETE FROM sample_table WHERE " +:+ where_clause_of_spec columns conditions
     = "DELETE FROM sample_table WHERE column1 = :column1"
  /\ run.1 = Raised (StatementError "A value is required for bind parameter")
  /\ tables run.2 = tables sample_world.
Proof. vm_compute. repeat split. Qed.

(** ** The schema is asked on every call *)

(** Follows a run through every outcome of the calls it makes. *)
Ltac split_run :=
  repeat first
    [ progress (simpl exec; unfold perform; simpl handle; cbv beta iota)
    | match goal with
      | |- context [bool_decide ?P] => destruct (bool_decide P)
      | |- context [String.eqb ?a ?b] => destruct (String.eqb a b)
      | |- context [parse ?s] => destruct (parse s) as [[?|?|? ?]|]
      | |- context [run_statement ?s ?p ?d] =>
          destruct (run_statement s p d) as [[? ?]|?]
      | |- context [pandas_to_sql ?f ?n ?i ?x ?d] =>
          destruct (pandas_to_sql f n i x d) as [[? ?]|?]
      | |- context [@lookup _ _ (gmap string DataFrame) _ ?k ?m] =>
          destruct (m !! k)
      end ].

Ltac enter_body :=
  rewrite exec_measure_execution_time;
  unfold Undecorated.create_table, Undecorated.insert_sql,
    Undecorated.truncate_table, Undecorated.read_sql,
    Undecorated.delete_from_table, with_connect;
  unfold mbind, Prog_bind, mret, Prog_ret; simpl bind;
  simpl exec; unfold perform; simpl handle; cbv beta iota.

Ltac close_guarded :=
  split_run; simpl; unfold schema_query; rewrite <- ?app_assoc; simpl;
  (eexists; split; [reflexivity|];
   split; [reflexivity | intros Hx; first [assumption | discriminate Hx]]).

(** Guards of the form [table_name not in names]. *)
Ltac guarded_if_present t w :=
  intros w; enter_body;
  destruct (decide (t ∈ table_names w)) as [Hin|Hout];
  [ rewrite (bool_decide_false (t ∉ table_names _))
      by (intros Hn; exact (Hn Hin))
  | rewrite (bool_decide_true (t ∉ table_names _)) by exact Hout ];
  (close_guarded).

Lemma create_table_guarded (self : DatabaseAPI) (t : string) (df : DataFrame) :
  guarded_by (create_table self t df) self (fun names => t ∉ names).
Proof.
  intros w. unfold create_table. enter_body.
  destruct (decide (t ∈ table_names w)) as [Hin|Hout];
    [ rewrite (bool_decide_true (t ∈ table_names _)) by exact Hin
    | rewrite (bool_decide_false (t ∈ table_names _)) by exact Hout ];
    (close_guarded).
Qed.

Lemma insert_sql_guarded (self : DatabaseAPI) (t : string) (df : DataFrame)
  (mode : string) :
  guarded_by (insert_sql self t df mode) self (fun names => t ∈ names).
Proof. unfold insert_sql. guarded_if_present t w. Qed.

Lemma truncate_table_guarded (self : DatabaseAPI) (t : string) :
  guarded_by (truncate_table self t) self (fun names => t ∈ names).
Proof. unfold truncate_table. guarded_if_present t w. Qed.

Lemma read_sql_guarded (self : DatabaseAPI) (t : string) :
  guarded_by (read_sql self t) self (fun names => t ∈ names).
Proof. unfold read_sql. guarded_if_present t w. Qed.

Lemma delete_from_table_guarded (self : DatabaseAPI) (t : string)
  (columns : list string) (conditions : gmap string Value) :
  guarded_by (delete_from_table self t columns conditions) self
    (fun names => t ∈ names).
Proof. unfold delete_from_table. guarded_if_present t w. Qed.

(** Runs the same method from two worlds that store the same tables. *)
Ltac same_tables :=
  intros [c1 r1 o1 db1 tx1 l1] [c2 r2 o2 db2 tx2 l2] H;
  simpl in H; subst db2;
  rewrite !exec_measure_execution_time;
  unfold Undecorated.create_table, Undecorated.insert_sql,
    Undecorated.truncate_table, Undecorated.read_sql,
    Undecorated.delete_from_table, with_connect;
  unfold mbind, Prog_bind, mret, Prog_ret; simpl bind;
  unfold started; simpl; unfold perform; simpl; unfold table_names; simpl;
  split_run; simpl; split; reflexivity.

Lemma create_table_live (self : DatabaseAPI) (t : string) (df : DataFrame) :
  depends_on_live_tables_only (create_table self t df).
Proof. unfold create_table. same_tables. Qed.

Lemma insert_sql_live (self : DatabaseAPI) (t : string) (df : DataFrame)
  (mode : string) :
  depends_on_live_tables_only (insert_sql self t df mode).
Proof. unfold insert_sql. same_tables. Qed.

Lemma truncate_table_live (self : DatabaseAPI) (t : string) :
  depends_on_live_tables_only (truncate_table self t).
Proof. unfold truncate_table. same_tables. Qed.

Lemma read_sql_live (self : DatabaseAPI) (t : string) :
  depends_on_live_tables_only (read_sql self t).
Proof. unfold read_sql. same_tables. Qed.

Lemma delete_from_table_live (self : DatabaseAPI) (t : string)
  (columns : list string) (conditions : gmap string Value) :
  depends_on_live_tables_only (delete_from_table self t columns conditions).
Proof. unfold delete_from_table. same_tables. Qed.

(** C8: each of the five guarded methods asks the live schema for its
    table names once per call, before any other call to the database, and
    goes on to the database only when the names just returned allow it;
    its result and the tables it leaves depend on the tables it finds and
    on nothing kept from earlier calls. *)
Theorem schema_is_queried_on_every_call (self : DatabaseAPI)
  (table_name : string) (dataframe : DataFrame) (mode : string)
  (columns : list string) (conditions : gmap string Value) :
  (guarded_by (create_table self table_name dataframe) self
     (fun names => table_name ∉ names)
   /\ depends_on_live_tables_only (create_table self table_name dataframe))
  /\ (guarded_by (insert_sql self table_name dataframe mode) self
        (fun names => table_name ∈ names)
      /\ depends_on_live_tables_only
           (insert_sql self table_name dataframe mode))
  /\ (guarded_by (truncate_table self table_name) self
        (fun names => table_name ∈ names)
      /\ depends_on_live_tables_only (truncate_table self table_name))
  /\ (guarded_by (read_sql self table_name) self
        (fun names => table_name ∈ names)
      /\ depends_on_live_tables_only (read_sql self table_name))
  /\ (guarded_by (delete_from_table self table_name columns conditions) self
        (fun names => table_name ∈ names)
      /\ depends_on_live_tables_only
           (delete_from_table self table_name columns conditions)).
Proof.
  split; [split; [apply create_table_guarded | apply create_table_live]|].
  split; [split; [apply insert_sql_guarded | apply insert_sql_live]|].
  split; [split; [apply truncate_table_guarded | apply truncate_table_live]|].
  split; [split; [apply read_sql_guarded | apply read_sql_live]|].
  split; [apply delete_from_table_guarded | apply delete_from_table_live].
Qed.

(** ** Table names inside SQL text *)

Lemma word_char_not_space (c : ascii) :
  word_char c = true -> Ascii.eqb c " " = false.
Proof.
  intros H. destruct (Ascii.eqb_spec c " ") as [->|]; [|reflexivity].
  vm_compute in H. discriminate.
Qed.

Lemma append_snoc (cur : string) (c : ascii) (rest : string) :
  (cur +:+ String c EmptyString) +:+ rest = cur +:+ String c rest.
Proof.
  induction cur as [|a cur IH]; [reflexivity|].
  change (String a ((cur +:+ String c EmptyString) +:+ rest)
          = String a (cur +:+ String c rest)).
  f_equal. exact IH.
Qed.

Lemma append_empty_r (s : string) : s +:+ "" = s.
Proof.
  induction s as [|a s IH]; [reflexivity|].
  change (String a (s +:+ "") = String a s). f_equal. exact IH.
Qed.

Lemma fold_case_plain (s : string) :
  all_chars (fun c => negb (is_upper c)) s = true -> fold_case s = s.
Proof.
  induction s as [|c s IH]; simpl; [reflexivity|].
  intros H. apply andb_true_iff in H as [Hc Hs].
  unfold lower. apply negb_true_iff in Hc. rewrite Hc, IH; auto.
Qed.

Lemma plain_identifier_ref (t : string) :
  plain_identifier t = true -> identifier_ref t = Some t.
Proof.
  unfold plain_identifier, identifier_ref. intros H.
  apply andb_true_iff in H as [H Hr]. apply andb_true_iff in H as [Hi Hu].
  rewrite (fold_case_plain t Hu), Hi, Hr. reflexivity.
Qed.

Lemma plain_identifier_word (t : string) :
  plain_identifier t = true -> all_chars word_char t = true /\ t ≠ "".
Proof.
  unfold plain_identifier. intros H.
  apply andb_true_iff in H as [H _]. apply andb_true_iff in H as [Hi _].
  destruct t as [|c t]; [discriminate|].
  unfold is_identifier in Hi. apply andb_true_iff in Hi as [_ Hw].
  split; [exact Hw | discriminate].
Qed.

(** C3: on the new name [a b] the code does not return the frame.  The
    table is created under that name through [to_sql], the guard of
    [read_sql] finds the name in the schema, but the query text is
    [SELECT * FROM a b], which names the table [a]; the read raises and
    the frame stays unread. *)
Lemma spaced_name_is_not_read_back :
  let run := exec (_ ← create_table sample_api "a b" sample_frame;
                   read_sql sample_api "a b") empty_world in
  ("a b" ∉ table_names empty_world)
  /\ run.1 = Raised (ProgrammingError "relation does not exist")
  /\ tables run.2 !! "a b" = Some sample_frame
  /\ List.filter touches_database (log run.2)
     = [ entry (to_sql sample_frame "a b" (engine sample_api) "fail" false);
         entry (read_sql_query "SELECT * FROM a b" (engine sample_api)) ]
  /\ ~ reads_back sample_api "a b" sample_frame empty_world.
Proof.
  intros run.
  assert (E : run.1 = Raised (ProgrammingError "relation does not exist"))
    by (vm_compute; reflexivity).
  split; [apply (bool_decide_unpack _); vm_compute; exact I|].
  split; [exact E|]. split; [vm_compute; reflexivity|].
  split; [vm_compute; reflexivity|].
  intros [w' Hw']. unfold run in E. rewrite Hw' in E. discriminate E.
Qed.

(** C7: on the existing table [a b] the code does not truncate.  The
    guard finds the name in the schema, but the statement text is
    [TRUNCATE TABLE a b], which is not a statement about that table; the
    execution raises, nothing is committed and the rows stay. *)
Lemma spaced_name_is_not_truncated :
  let run := exec (truncate_table sample_api "a b") spaced_world in
  let conn := {| connection_engine := engine sample_api |} in
  ("a b" ∈ table_names spaced_world)
  /\ run.1 = Raised (ProgrammingError "syntax error")
  /\ tables run.2 !! "a b" = Some sample_frame
  /\ List.filter touches_database (log run.2)
     = [ entry (connect (engine sample_api));
         entry (conn_execute conn (text "TRUNCATE TABLE a b") ∅);
         entry (conn_close conn) ].
Proof.
  intros run conn.
  split; [apply (bool_decide_unpack _); vm_compute; exact I|].
  split; [vm_compute; reflexivity|].
  split; vm_compute; reflexivity.
Qed.

(** ** The DELETE statement as the database reads it *)

Lemma append_assoc (a b c : string) : (a +:+ b) +:+ c = a +:+ (b +:+ c).
Proof.
  induction a as [|x a IH]; [reflexivity|].
  change (String x ((a +:+ b) +:+ c) = String x (a +:+ (b +:+ c))).
  f_equal. exact IH.
Qed.

Lemma word_char_no_space (s : string) :
  all_chars word_char s = true -> all_chars no_space s = true.
Proof.
  induction s as [|c s IH]; [reflexivity|]. simpl.
  intros H. apply andb_true_iff in H as [Hc Hs].
  unfold no_space at 1. rewrite (word_char_not_space c Hc), IH; auto.
Qed.

(** A run without spaces that is followed by a space is one token. *)
Lemma tokens_from_until_space (s cur rest : string) :
  all_chars no_space s = true ->
  cur +:+ s ≠ "" ->
  tokens_from cur (s +:+ String " " rest) = (cur +:+ s) :: tokens_from "" rest.
Proof.
  revert cur. induction s as [|c s IH]; intros cur Hw Hne.
  - rewrite append_empty_r in *.
    change (tokens_from cur ("" +:+ String " " rest))
      with ((if String.eqb cur "" then [] else [cur]) ++ tokens_from "" rest).
    destruct (String.eqb_spec cur ""); [contradiction | reflexivity].
  - simpl in Hw. apply andb_true_iff in Hw as [Hc Hs].
    unfold no_space in Hc. apply negb_true_iff in Hc.
    change (tokens_from cur (String c s +:+ String " " rest))
      with (if Ascii.eqb c " "
            then (if String.eqb cur "" then [] else [cur])
                   ++ tokens_from "" (s +:+ String " " rest)
            else tokens_from (cur +:+ String c EmptyString)
                   (s +:+ String " " rest)).
    rewrite Hc, IH; rewrite ?append_snoc; auto.
Qed.

Lemma tokens_from_no_space (s cur : string) :
  all_chars no_space s = true ->
  cur +:+ s ≠ "" ->
  tokens_from cur s = [cur +:+ s].
Proof.
  revert cur. induction s as [|c s IH]; intros cur Hw Hne; simpl.
  - rewrite append_empty_r in *.
    destruct (String.eqb_spec cur ""); [contradiction | reflexivity].
  - simpl in Hw. apply andb_true_iff in Hw as [Hc Hs].
    unfold no_space in Hc. apply negb_true_iff in Hc.
    rewrite Hc, IH; rewrite ?append_snoc; auto.
Qed.

Lemma tokens_of_tests (columns : list string) :
  Forall (fun c => plain_identifier c = true) columns ->
  tokens_from ""
    (String.concat " AND "
       (map (fun column => column +:+ " = :" +:+ column) columns))
  = test_tokens columns.
Proof.
  induction 1 as [|c cs Hc Hcs IH]; [reflexivity|].
  destruct (plain_identifier_word c Hc) as [Hw Hne].
  pose proof (word_char_no_space c Hw) as Hn.
  assert (Hcolon : all_chars no_space (":" +:+ c) = true)
    by (change (true && all_chars no_space c = true); exact Hn).
  destruct cs as [|c' cs'].
  - change (tokens_from "" (c +:+ String " " (String "=" (String " " (":" +:+ c))))
            = [c; "="; ":" +:+ c]).
    rewrite (tokens_from_until_space c "" _ Hn Hne).
    change (tokens_from "" (String "=" (String " " (":" +:+ c))))
      with ("=" :: tokens_from "" (":" +:+ c)).
    rewrite (tokens_from_no_space (":" +:+ c) "" Hcolon) by discriminate.
    reflexivity.
  - set (R := String.concat " AND "
                (map (fun column => column +:+ " = :" +:+ column) (c' :: cs')))
      in *.
    change (tokens_from "" ((c +:+ (" = :" +:+ c)) +:+ (" AND " +:+ R))
            = c :: "=" :: (":" +:+ c) :: "AND" :: test_tokens (c' :: cs')).
    rewrite append_assoc, (append_assoc " = :" c).
    change (c +:+ " = :" +:+ c +:+ " AND " +:+ R)
      with (c +:+ String " " (String "=" (String " "
              (":" +:+ (c +:+ String " " ("AND " +:+ R)))))).
    rewrite (tokens_from_until_space c "" _ Hn Hne).
    change (tokens_from "" (String "=" (String " "
              (":" +:+ (c +:+ String " " ("AND " +:+ R))))))
      with ("=" :: tokens_from "" ((":" +:+ c) +:+ String " " ("AND " +:+ R))).
    rewrite (tokens_from_until_space (":" +:+ c) "" _ Hcolon) by discriminate.
    change (tokens_from "" ("AND " +:+ R)) with ("AND" :: tokens_from "" R).
    rewrite IH. reflexivity.
Qed.

Lemma bind_name_plain (c : string) :
  plain_identifier c = true -> bind_name (":" +:+ c) = Some c.
Proof.
  intros H. destruct (plain_identifier_word c H) as [Hw Hne].
  change (bind_name (":" +:+ c))
    with (if true && negb (String.eqb c "") && all_chars word_char c
          then Some c else None).
  rewrite Hw. destruct (String.eqb_spec c ""); [contradiction | reflexivity].
Qed.

Lemma parse_test_tokens (columns : list string) :
  columns ≠ [] ->
  Forall (fun c => plain_identifier c = true) columns ->
  parse_tests (test_tokens columns) = Some (map (fun c => (c, c)) columns).
Proof.
  intros Hne H. induction H as [|c cs Hc Hcs IH]; [contradiction|].
  destruct cs as [|c' cs'].
  - change (test_tokens [c]) with [c; "="; ":" +:+ c].
    cbn [parse_tests]. change (String.eqb "=" "=") with true. cbv iota.
    rewrite (plain_identifier_ref c Hc), (bind_name_plain c Hc).
    reflexivity.
  - change (test_tokens (c :: c' :: cs'))
      with (c :: "=" :: (":" +:+ c) :: "AND" :: test_tokens (c' :: cs')).
    cbn [parse_tests]. change (String.eqb "=" "=") with true. cbv iota.
    rewrite (plain_identifier_ref c Hc), (bind_name_plain c Hc).
    change (keyword "and" "AND") with true. cbv iota.
    rewrite IH by discriminate. reflexivity.
Qed.

(** Read by the database, the statement [delete_from_table] builds is a
    DELETE on the named table with one test [column = :column] for every
    listed column, in order. *)
Lemma delete_query_reads_as_conjunction (table_name : string)
  (columns : list string) :
  plain_identifier table_name = true ->
  columns ≠ [] ->
  Forall (fun c => plain_identifier c = true) columns ->
  parse (clause_text (Undecorated.delete_query table_name columns))
  = Some (DeleteWhere table_name (map (fun c => (c, c)) columns)).
Proof.
  intros Ht Hne Hc. destruct (plain_identifier_word table_name Ht) as [Hw Hn].
  unfold Undecorated.delete_query, text, clause_text, parse, tokens.
  set (R := String.concat " AND " _).
  change (tokens_from "" ("DELETE FROM " +:+ table_name +:+ " WHERE " +:+ R))
    with ("DELETE" :: "FROM"
            :: tokens_from "" (table_name +:+ String " " ("WHERE " +:+ R))).
  rewrite (tokens_from_until_space table_name "" _
             (word_char_no_space _ Hw) Hn).
  change (tokens_from "" ("WHERE " +:+ R)) with ("WHERE" :: tokens_from "" R).
  unfold R. rewrite (tokens_of_tests columns Hc).
  change ("" +:+ table_name) with table_name.
  change (keyword "select" "DELETE" && String.eqb "FROM" "*"
            && keyword "from" table_name) with false.
  change (keyword "truncate" "DELETE" && keyword "table" "FROM") with false.
  change (keyword "delete" "DELETE" && keyword "from" "FROM") with true.
  change (keyword "where" "WHERE") with true.
  cbv iota.
  rewrite (plain_identifier_ref table_name Ht), (parse_test_tokens columns Hne Hc).
  reflexivity.
Qed.

(** * Further properties of the facade *)

(** X1: [create_table] on a name the schema already lists prints that the
    table exists and returns; nothing is written and the stored table
    keeps its contents. *)
Theorem existing_table_is_not_recreated (self : DatabaseAPI)
  (table_name : string) (dataframe : DataFrame) (w : World) :
  table_name ∈ table_names w ->
  reports_only (create_table self table_name dataframe) w tt
    [ "Таблица " +:+ table_name +:+ " уже существует. Нельзя создать таблицу.";
      elapsed_line w ].
Proof.
  intros H. unfold reports_only, create_table.
  rewrite exec_measure_execution_time.
  unfold Undecorated.create_table. run_calls.
  rewrite bool_decide_true by exact H.
  report.
Qed.

Lemma existing_table_is_not_recreated_witness :
  ("sample_table" ∈ table_names sample_world)
  /\ reports_only (create_table sample_api "sample_table" later_frame)
       sample_world tt
       [ "Таблица sample_table уже существует. Нельзя создать таблицу.";
         "Время выполнения: 01-30-00" ].
Proof.
  assert (H : "sample_table" ∈ table_names sample_world).
  { apply (bool_decide_unpack _). vm_compute. exact I. }
  split; [exact H|].
  apply (existing_table_is_not_recreated sample_api "sample_table"
           later_frame sample_world H).
Defined.

Lemma bind_tests_missing (columns : list string) (c : string)
  (conditions : gmap string Value) :
  c ∈ columns ->
  conditions !! c = None ->
  bind_tests (map (fun c => (c, c)) columns) conditions = None.
Proof.
  induction columns as [|y cs IH]; intros Hin Hc; [inversion Hin|].
  simpl. apply elem_of_cons in Hin as [<-|Hin].
  - rewrite Hc. reflexivity.
  - rewrite (IH Hin Hc). destruct (conditions !! y); reflexivity.
Qed.

(** X11: with plain identifiers, a listed column that has no entry in
    [conditions] makes [delete_from_table] raise: the statement is sent
    but not committed, the connection is closed, no row is removed and no
    message is printed. *)
Theorem missing_condition_raises (self : DatabaseAPI) (table_name : string)
  (columns : list string) (conditions : gmap string Value) (c : string)
  (w : World) :
  plain_identifier table_name = true ->
  table_name ∈ table_names w ->
  Forall (fun c => plain_identifier c = true) columns ->
  c ∈ columns ->
  conditions !! c = None ->
  conditions ≠ ∅ ->
  let conn := {| connection_engine := engine self |} in
  exists w',
    exec (delete_from_table self table_name columns conditions) w
    = (Raised (StatementError "A value is required for bind parameter"), w')
    /\ tables w' = tables w
    /\ transaction w' = None
    /\ stdout w' = stdout w
    /\ log w'
       = log w ++ schema_query self
           ++ [ entry (connect (engine self));
                entry (conn_execute conn
                         (Undecorated.delete_query table_name columns)
                         conditions);
                entry (conn_close conn) ].
Proof.
  intros Hp H Hplain Hin Hc Hcond conn.
  assert (Hne : columns ≠ []) by (intros ->; inversion Hin).
  unfold delete_from_table. enter_body.
  rewrite (bool_decide_false (table_name ∉ table_names _))
    by (intros Hn; apply Hn; exact H).
  rewrite (bool_decide_false (columns = [])),
    (bool_decide_false (conditions = ∅)) by assumption.
  cbv beta iota. simpl orb. cbv iota.
  simpl exec. unfold perform. simpl handle. cbv beta iota.
  pose proof (delete_query_reads_as_conjunction table_name columns
                Hp Hne Hplain) as Hq.
  unfold Undecorated.delete_query, text, clause_text in Hq |- *.
  rewrite Hq.
  unfold run_statement.
  rewrite (bind_tests_missing columns c conditions Hin Hc).
  simpl. eexists. split; [reflexivity|]. simpl.
  unfold schema_query. rewrite <- ?app_assoc. repeat split.
Qed.

Lemma missing_condition_raises_witness :
  let conditions : gmap string Value := {[ "column1" := VStr "value1" ]} in
  plain_identifier "sample_table" = true
  /\ ("sample_table" ∈ table_names sample_world)
  /\ Forall (fun c => plain_identifier c = true) ["column1"; "column2"]
  /\ ("column2" ∈ ["column1"; "column2"])
  /\ conditions !! "column2" = None
  /\ conditions ≠ ∅
  /\ exists w',
       exec (delete_from_table sample_api "sample_table"
               ["column1"; "column2"] conditions) sample_world
       = (Raised (StatementError "A value is required for bind parameter"),
          w')
       /\ tables w' = tables sample_world.
Proof.
  intros conditions.
  assert (Hp : plain_identifier "sample_table" = true) by reflexivity.
  assert (H : "sample_table" ∈ table_names sample_world).
  { apply (bool_decide_unpack _). vm_compute. exact I. }
  assert (Hplain : Forall (fun c => plain_identifier c = true)
                     ["column1"; "column2"]) by (repeat constructor).
  assert (Hin : "column2" ∈ ["column1"; "column2"]).
  { apply (bool_decide_unpack _). vm_compute. exact I. }
  assert (Hc : conditions !! "column2" = None) by reflexivity.
  assert (Hcond : conditions ≠ ∅).
  { apply (bool_decide_unpack _). vm_compute. exact I. }
  split; [exact Hp|]. split; [exact H|]. split; [exact Hplain|].
  split; [exact Hin|]. split; [exact Hc|]. split; [exact Hcond|].
  destruct (missing_condition_raises sample_api "sample_table"
              ["column1"; "column2"] conditions "column2" sample_world
              Hp H Hplain Hin Hc Hcond) as (w' & He & Ht & _).
  exists w'. split; [exact He | exact Ht].
Defined.

(** ** The printed duration, field by field *)

Lemma digit_value_digit (k : Z) :
  0 <= k < 10 -> digit_value (digit k) = Some k.
Proof.
  intros H.
  assert (Hk : In k (map Z.of_nat (seq 0 10))).
  { apply in_map_iff. exists (Z.to_nat k). split; [lia|]. apply in_seq. lia. }
  simpl in Hk.
  repeat (destruct Hk as [<-|Hk]; [reflexivity|]). destruct Hk.
Qed.

Lemma two_digit_value (n : Z) :
  0 <= n < 100 ->
  match digit_value (digit (n / 10)), digit_value (digit (n mod 10)) with
  | Some x, Some y => Some (10 * x + y)
  | _, _ => None
  end = Some n.
Proof.
  intros H.
  rewrite !digit_value_digit.
  - f_equal. rewrite (Z.div_mod n 10) at 3 by lia. reflexivity.
  - apply Z.mod_pos_bound. lia.
  - split; [apply Z.div_pos; lia | apply Z.div_lt_upper_bound; lia].
Qed.

(** A formatted duration is eight characters, [HH-MM-SS]; its three
    fields are in range and together give the whole seconds of the
    duration modulo one day. *)
Lemma duration_fields (elapsed : Q) :
  let formatted := strftime "%H-%M-%S" (gmtime elapsed) in
  exists h m s,
    field_at 0 formatted = Some h
    /\ field_at 3 formatted = Some m
    /\ field_at 6 formatted = Some s
    /\ String.length formatted = 8%nat
    /\ 0 <= h < 24 /\ 0 <= m < 60 /\ 0 <= s < 60
    /\ 3600 * h + 60 * m + s = Qfloor elapsed mod 86400.
Proof.
  intros formatted.
  set (t := Qfloor elapsed mod 86400).
  assert (Ht : 0 <= t < 86400) by (apply Z.mod_pos_bound; lia).
  assert (Hh : 0 <= t / 3600 < 24).
  { split; [apply Z.div_pos; lia | apply Z.div_lt_upper_bound; lia]. }
  pose proof (Z.mod_pos_bound t 3600 ltac:(lia)) as Hr.
  assert (Hm : 0 <= (t mod 3600) / 60 < 60).
  { split; [apply Z.div_pos; lia | apply Z.div_lt_upper_bound; lia]. }
  pose proof (Z.mod_pos_bound t 60 ltac:(lia)) as Hs.
  assert (E : (t mod 3600) mod 60 = t mod 60).
  { rewrite (Z.div_mod t 3600) at 2 by lia.
    replace (3600 * (t / 3600) + t mod 3600)
      with (t mod 3600 + (60 * (t / 3600)) * 60) by lia.
    rewrite Z.mod_add by lia. reflexivity. }
  pose proof (Z.div_mod t 3600 ltac:(lia)) as D1.
  pose proof (Z.div_mod (t mod 3600) 60 ltac:(lia)) as D2.
  set (h := t / 3600) in *. set (m := (t mod 3600) / 60) in *.
  set (s := t mod 60) in *.
  exists h, m, s.
  change formatted
    with (String (digit (h / 10)) (String (digit (h mod 10)) (String "-"
           (String (digit (m / 10)) (String (digit (m mod 10)) (String "-"
             (String (digit (s / 10)) (String (digit (s mod 10)) "")))))))).
  unfold field_at. cbn [String.get Nat.eqb].
  rewrite !two_digit_value by lia.
  repeat (split; [first [reflexivity | lia]|]).
  lia.
Qed.

(** X12: when the wrapped operation returns, the line the decorator
    prints is the fixed prefix followed by eight characters [HH-MM-SS],
    whose three fields are in range and together give the whole seconds
    between the two clock readings modulo one day; so a call shorter than
    a day is reported without loss of its whole seconds. *)
Theorem decorator_prints_the_whole_seconds {A R : Type} (func : A -> Prog R)
  (arguments : A) (w w2 : World) (result : R) :
  exec (func arguments) (started w) = (Returned result, w2) ->
  let elapsed :=
    (wall_clock w2 (clock_reads w2) - wall_clock w (clock_reads w))%Q in
  exists formatted w3 h m s,
    exec (measure_execution_time func arguments) w = (Returned result, w3)
    /\ stdout w3 = stdout w2 ++ [ "Время выполнения: " +:+ formatted ]
    /\ String.length formatted = 8%nat
    /\ field_at 0 formatted = Some h
    /\ field_at 3 formatted = Some m
    /\ field_at 6 formatted = Some s
    /\ 0 <= h < 24 /\ 0 <= m < 60 /\ 0 <= s < 60
    /\ 3600 * h + 60 * m + s = Qfloor elapsed mod 86400.
Proof.
  intros H elapsed.
  destruct (duration_fields elapsed)
    as (h & m & s & Hh & Hm & Hs & Hl & Rh & Rm & Rs & Hsum).
  exists (strftime "%H-%M-%S" (gmtime elapsed)).
  rewrite exec_measure_execution_time, H.
  eexists _, h, m, s. split; [reflexivity|]. split; [reflexivity|].
  repeat (split; [assumption|]). exact Hsum.
Qed.

Lemma decorator_prints_the_whole_seconds_witness :
  let arguments : list Value * gmap string Value := ([VInt 1; VInt 2], ∅) in
  let w2 :=
    set_stdout ["working"]
      (set_log [ entry time_time; entry (print "working") ]
         (set_clock_reads 1 sample_world)) in
  exec (counting_operation arguments) (started sample_world)
  = (Returned 2, w2)
  /\ exists formatted w3 h m s,
       exec (measure_execution_time counting_operation arguments) sample_world
       = (Returned 2, w3)
       /\ stdout w3 = stdout w2 ++ [ "Время выполнения: " +:+ formatted ]
       /\ 3600 * h + 60 * m + s = 5400.
Proof.
  intros arguments w2.
  assert (H : exec (counting_operation arguments) (started sample_world)
              = (Returned 2, w2)) by reflexivity.
  split; [exact H|].
  destruct (decorator_prints_the_whole_seconds counting_operation arguments
              sample_world w2 2 H)
    as (formatted & w3 & h & m & s & He & Hs & _ & _ & _ & _ & _ & _ & _
        & Hsum).
  exists formatted, w3, h, m, s.
  split; [exact He|]. split; [exact Hs | exact Hsum].
Defined.

(** ** The connection URL *)

(** X15: the connection URL is built without escaping, so it does not
    determine the credentials: a colon moved from the user name to the
    password gives the same engine. *)
Theorem connection_url_is_not_escaped (host username password rest
                                        database_name : string) :
  create_connection host (username +:+ ":" +:+ password) rest database_name
  = create_connection host username (password +:+ ":" +:+ rest) database_name.
Proof.
  unfold create_connection, create_engine. f_equal.
  change ("postgresql+psycopg2://" +:+ ?x)
    with (String.append "postgresql+psycopg2://" x).
  f_equal. rewrite !append_assoc. reflexivity.
Qed.

(** ** Against any environment *)

(** The reference environment is one environment among all. *)
Lemma exec_is_run {R : Type} (p : Prog R) (w : World) :
  (run (fun X e w => perform e w) p w).1 = exec p w.
Proof.
  revert w. induction p as [A r | A X e k IH | A X body IHb final IHf k IHk];
    intros w; simpl.
  - reflexivity.
  - destruct (perform e w) as [[x|ex] w']; [|reflexivity].
    rewrite <- IH. destruct (run _ (k x) w') as [[o s2] tr]. reflexivity.
  - rewrite <- IHb. destruct (run _ body w) as [[o s1] t1]. simpl.
    rewrite <- IHf. destruct (run _ final s1) as [[o2 s2] t2]. simpl.
    destruct o2; [|reflexivity]. destruct o; [|reflexivity].
    rewrite <- IHk. destruct (run _ (k x0) s2) as [[o3 s3] t3]. reflexivity.
Qed.

(** Follows a run through every answer the environment can give. *)
Ltac answer_all respond :=
  repeat (simpl;
          match goal with
          | |- context [respond ?X ?e ?s] =>
              let E := fresh "E" in
              destruct (respond X e s) as [[?|?] ?] eqn:E
          | |- context [bool_decide ?P] => destruct (bool_decide P)
          | |- context [String.eqb ?a ?b] => destruct (String.eqb a b)
          | |- context [orb ?a ?b] => destruct (orb a b)
          end).

Ltac open_method :=
  unfold execute, truncate_table, delete_from_table, read_sql,
    measure_execution_time, Undecorated.execute, Undecorated.truncate_table,
    Undecorated.delete_from_table, Undecorated.read_sql, with_connect,
    call, mbind, Prog_bind, mret, Prog_ret.

Lemma truncate_table_closes (self : DatabaseAPI) (t : string) :
  closes_what_it_opens (truncate_table self t).
Proof.
  intros St respond s. open_method.
  answer_all respond; simpl; split; reflexivity.
Qed.

Lemma delete_from_table_closes (self : DatabaseAPI) (t : string)
  (columns : list string) (conditions : gmap string Value) :
  closes_what_it_opens (delete_from_table self t columns conditions).
Proof.
  intros St respond s. open_method.
  answer_all respond; simpl; split; reflexivity.
Qed.

Lemma execute_closes (self : DatabaseAPI) (query : string) :
  closes_what_it_opens (execute self query).
Proof.
  intros St respond s. open_method.
  answer_all respond; simpl; split; reflexivity.
Qed.

(** X13: whatever the database, the clock and the console do,
    [truncate_table], [delete_from_table] and [execute] call close once
    for every connection they were handed, also when the statement, the
    commit or a later call raises, and they commit only right after an
    execution that returned. *)
Theorem connections_are_closed_on_every_path (self : DatabaseAPI)
  (table_name : string) (columns : list string)
  (conditions : gmap string Value) (query : string) :
  closes_what_it_opens (truncate_table self table_name)
  /\ closes_what_it_opens
       (delete_from_table self table_name columns conditions)
  /\ closes_what_it_opens (execute self query).
Proof.
  split; [apply truncate_table_closes|].
  split; [apply delete_from_table_closes | apply execute_closes].
Qed.

(** X7: whatever the collaborators do, [execute] never asks the schema
    and sends the text as given, with no parameters.  It returns only
    after clock, connect, execute, commit, close, clock and print all
    returned, and then returns what the execution answered; when it
    raises, no line has reached the console. *)
Theorem execute_is_unguarded (self : DatabaseAPI) (query : string) :
  runs_raw self query.
Proof.
  intros St respond s. open_method.
  answer_all respond; simpl; (split; [reflexivity|]); try reflexivity.
  eexists _, _, _, _. split; [reflexivity|]. eassumption.
Qed.

(** X14: whatever the collaborators do, [read_sql] makes none of the
    calls through which the facade writes (no [to_sql], no connection, no
    execute, no commit); a frame it returns is the answer to the query
    [SELECT * FROM] followed by the name as given, unmodified, and it
    returns [None] only without having sent a query. *)
Theorem read_sql_only_reads (self : DatabaseAPI) (table_name : string) :
  reads_only self table_name.
Proof.
  intros St respond s. open_method.
  answer_all respond; simpl; (split; [reflexivity|]); try reflexivity;
    try exact I.
  eexists _, _. eassumption.
Qed.
